(** * Q-value head of the object-tracker RL agent

    Shallow embedding of
    [sagemaker_rl_agent/rl_coach/architectures/mxnet_components/heads/q_head.py]:
    the two classes [QHeadLoss] and [QHead], together with the small part of
    the tensor backend, of the gluon loss/layer library and of the [Head]
    base classes that they call.

    Conventions.
    - Python floats are modelled by exact rationals ([Q]); rounding is not
      modelled, so statements about values hold up to rounding.
    - A Python object under construction is a record whose attributes that
      are assigned by the subclass constructor are [option]s: [None] means
      "attribute not assigned yet", and reading it raises [AttributeError].
    - Exceptions are values of [exn]; fallible code runs in the [result]
      monad, constructors in the [Init] state-and-error monad over [self].
    - Blocks created by a factory live in a heap ([gmap] from addresses to
      objects), so that object identity can be told apart from equality of
      configuration. *)

From Stdlib Require Import QArith Qabs ZArith Lia.
From stdpp Require Import gmap strings list.

Local Open Scope string_scope.

(** ** Exceptions and the result monad *)

Inductive exn : Type :=
| AssertionError (msg : string)
| AttributeError (attr : string)
| MXNetError (msg : string)
| ValueError (msg : string).

Inductive result (A : Type) : Type :=
| Ok (a : A)
| Raise (e : exn).
Arguments Ok {A} a.
Arguments Raise {A} e.

#[global] Instance result_ret : MRet result := fun A a => Ok a.

#[global] Instance result_bind : MBind result := fun A B k r =>
  match r with
  | Ok a => k a
  | Raise e => Raise e
  end.

(** ** Tensor backend (the [F] module and [NDArray] methods)

    Only ranks 1 and 2 occur in this file: predictions and targets are
    matrices [(batch_size, num_actions)], a per-sample loss is a vector,
    and the final loss is a vector of one element. The backend has no
    tensor without dimensions, and none with a dimension of size zero: the
    operations below reject an argument without elements. *)

Module nd.

Definition Matrix : Type := list (list Q).

Inductive NDArray : Type :=
| vector (v : list Q)
| matrix (m : Matrix).

(** [m] is a tensor of shape [(B, D)]: [B >= 1] rows of [D >= 1] entries
    each. *)
Definition has_shape (m : Matrix) (B D : nat) : Prop :=
  1 <= B /\ 1 <= D /\ length m = B /\ Forall (fun row => length row = D) m.

Definition shape (t : NDArray) : list nat :=
  match t with
  | vector v => [length v]
  | matrix m => [length m; length (hd [] m)]
  end.

(** The entries of a tensor, row by row. *)
Definition entries (t : NDArray) : list Q :=
  match t with
  | vector v => v
  | matrix m => concat m
  end.

(** The number of entries. *)
Definition size (m : Matrix) : nat := length (concat m).

(** A list of rows without any entry is no tensor. *)
Definition is_empty (m : Matrix) : bool :=
  match concat m with
  | [] => true
  | _ => false
  end.

Definition same_shape (a b : Matrix) : bool :=
  bool_decide (map length a = map length b).

Definition sum (v : list Q) : Q := foldr Qplus 0%Q v.

(** Arithmetic mean of a list with at least one element; the tensor
    operations below apply it to nothing else. *)
Definition mean_list (v : list Q) : Q := (sum v / inject_Z (Z.of_nat (length v)))%Q.

(** Columns of a matrix whose rows have [D] entries. *)
Definition columns (D : nat) (m : Matrix) : Matrix :=
  map (fun j => map (fun row => nth j row 0%Q) m) (seq 0 D).

(** [t.mean()]: reduction over every axis; the result is the tensor of
    shape [(1,)] that holds the mean of all entries. *)
Definition mean (t : NDArray) : result NDArray :=
  match entries t with
  | [] => Raise (MXNetError "zero-size tensor")
  | _ => Ok (vector [mean_list (entries t)])
  end.

(** [F.mean(m, axis=axis, exclude=True)] on a matrix: every axis except
    [axis] is reduced, one mean per index along [axis]. Negative axes
    count from the end; any other axis is rejected by the backend. *)
Definition mean_exclude (axis : Z) (m : Matrix) : result NDArray :=
  if is_empty m then Raise (MXNetError "zero-size tensor")
  else if bool_decide (axis = 0 \/ axis = -2)%Z then
    Ok (vector (map mean_list m))
  else if bool_decide (axis = 1 \/ axis = -1)%Z then
    Ok (vector (map mean_list (columns (length (hd [] m)) m)))
  else Raise (MXNetError "axis out of range").

(** Elementwise binary operation on two matrices of one shape. *)
Definition elemwise (f : Q -> Q -> Q) (a b : Matrix) : result Matrix :=
  if is_empty a then Raise (MXNetError "zero-size tensor")
  else if same_shape a b then Ok (zip_with (zip_with f) a b)
  else Raise (MXNetError "shape mismatch").

(** Rows of the given widths, filled in order from a flat list. *)
Fixpoint unflatten (widths : list nat) (flat : list Q) : Matrix :=
  match widths with
  | [] => []
  | w :: widths' => take w flat :: unflatten widths' (drop w flat)
  end.

(** [x.reshape(y.shape)]: the entries of [x] in the shape of [y], when the
    two have as many entries. *)
Definition reshape_like (x y : Matrix) : result Matrix :=
  if bool_decide (size x = size y) then Ok (unflatten (map length y) (concat x))
  else Raise (ValueError "cannot reshape array").

Definition dot (u v : list Q) : Q := sum (zip_with Qmult u v).

(** [F.FullyConnected(x, weight, bias, num_hidden, flatten=True)]:
    [y = x * weight^T + bias], with [weight] of shape
    [(num_hidden, in_units)], [bias] of shape [(num_hidden)] and
    [num_hidden >= 1]. *)
Definition FullyConnected (x weight : Matrix) (bias : list Q) (num_hidden : nat)
  : result Matrix :=
  if is_empty x then Raise (MXNetError "zero-size tensor")
  else if bool_decide (1 <= num_hidden
                       /\ length weight = num_hidden /\ length bias = num_hidden
                       /\ Forall (fun w => Forall (fun row => length row = length w) x) weight)
  then Ok (map (fun row => zip_with (fun w b => (dot row w + b)%Q) weight bias) x)
  else Raise (MXNetError "shape mismatch").

End nd.

(** ** The gluon library: losses and the dense layer *)

Module gluon.

(** Modelled from the spec: the loss classes of [mxnet.gluon.loss] are
    imported by the source, not defined in it. [L2Loss] is the
    mean-squared-error loss in the halved-squared-error convention,
    [HuberLoss] is quadratic near zero and linear for large errors; both
    take the label in the shape of the prediction, scale by [weight] and
    average over all non-batch dimensions per sample. A loss class is a Python class object: [OtherLoss] stands for
    any further subclass of [Loss], given by its name and by what its
    instances compute from [weight], [batch_axis], [pred] and [label]. *)
Inductive LossType : Type :=
| L2Loss
| HuberLoss
| OtherLoss (name : string)
            (hybrid_forward : Q -> Z -> nd.Matrix -> nd.Matrix -> result nd.NDArray).

(** [a == b] on class objects is identity of the class. *)
Definition class_eqb (a b : LossType) : bool :=
  match a, b with
  | L2Loss, L2Loss => true
  | HuberLoss, HuberLoss => true
  | OtherLoss n _, OtherLoss n' _ => String.eqb n n'
  | _, _ => false
  end.

(** An instance [loss_type(weight=..., batch_axis=...)]. *)
Record Loss : Type := mkLoss {
  loss_class : LossType;
  _weight : Q;
  _batch_axis : Z
}.

(** Modelled from the spec: the elementwise part of [L2Loss], the squared
    error scaled by [weight / 2]. *)
Definition l2_elem (weight : Q) (pred label : Q) : Q :=
  ((label - pred) * (label - pred) * (weight / 2))%Q.

(** Modelled from the spec: the threshold of [HuberLoss] is the one of the
    underlying library, whose constructor default is [rho = 1]. *)
Definition rho : Q := 1%Q.

(** Modelled from the spec: the elementwise part of [HuberLoss]. *)
Definition huber_elem (weight : Q) (pred label : Q) : Q :=
  let d := Qabs (label - pred) in
  ((if negb (Qle_bool d rho) then d - (1 # 2) * rho
    else ((1 # 2) / rho) * (d * d)) * weight)%Q.

(** Modelled from the spec: calling a loss instance on [(pred, label)]. *)
Definition call (l : Loss) (pred label : nd.Matrix) : result nd.NDArray :=
  match loss_class l with
  | L2Loss =>
      label ← nd.reshape_like label pred;
      loss ← nd.elemwise (l2_elem (_weight l)) pred label;
      nd.mean_exclude (_batch_axis l) loss
  | HuberLoss =>
      label ← nd.reshape_like label pred;
      loss ← nd.elemwise (huber_elem (_weight l)) pred label;
      nd.mean_exclude (_batch_axis l) loss
  | OtherLoss _ hybrid_forward =>
      hybrid_forward (_weight l) (_batch_axis l) pred label
  end.

(** Modelled from the spec: [nn.Dense], one linear transformation with
    output width [units]; the input width is inferred from the first
    input, after which the parameters have a fixed shape. [act] is the
    optional activation applied elementwise to the output
    ([activation=None] by default). *)
Record Dense : Type := mkDense {
  _units : nat;
  act : option (Q -> Q);
  weight : option nd.Matrix;
  bias : option (list Q)
}.

Definition Dense__init__ (units : nat) (activation : option (Q -> Q)) : Dense :=
  {| _units := units; act := activation; weight := None; bias := None |}.

(** The initial weight matrix of shape [(units, in_units)]: [init j k] is
    the initial weight from input [k] to output [j]. *)
Definition initial_weight (init : nat -> nat -> Q) (units in_units : nat) : nd.Matrix :=
  map (fun j => map (init j) (seq 0 in_units)) (seq 0 units).

(** Deferred initialisation: parameters are allocated for input width
    [in_units], biases start at zero. Allocated parameters are left
    alone. *)
Definition bind_params (init : nat -> nat -> Q) (in_units : nat) (d : Dense) : Dense :=
  match weight d, bias d with
  | Some _, Some _ => d
  | _, _ =>
      {| _units := _units d;
         act := act d;
         weight := Some (initial_weight init (_units d) in_units);
         bias := Some (replicate (_units d) 0%Q) |}
  end.

(** [Dense.hybrid_forward(F, x, weight, bias)]. *)
Definition Dense_hybrid_forward (d : Dense) (x w : nd.Matrix) (b : list Q)
  : result nd.Matrix :=
  out ← nd.FullyConnected x w b (_units d);
  match act d with
  | Some f => Ok (map (map f) out)
  | None => Ok out
  end.

(** [dense(x)]: bind the parameters on first use, then run the layer.
    Returns the layer (whose parameters may now be allocated) and the
    output. *)
Definition Dense_call (init : nat -> nat -> Q) (d : Dense) (x : nd.Matrix)
  : result (Dense * nd.Matrix) :=
  let d' := bind_params init (length (hd [] x)) d in
  match weight d', bias d' with
  | Some w, Some b => out ← Dense_hybrid_forward d' x w b; Ok (d', out)
  | _, _ => Raise (MXNetError "parameter not initialized")
  end.

End gluon.

(** ** Collaborators from [rl_coach] *)

Module spaces.

(** Modelled from the spec: the action-space classes of
    [rl_coach.spaces] are imported by the source, not defined in it. An
    action space is continuous ([BoxActionSpace]), discrete
    ([DiscreteActionSpace], with its enumerable [actions]) or of some
    other class; an instance of a subclass is represented by the
    constructor of its parent, as [isinstance] sees it. *)
Inductive ActionSpace : Type :=
| BoxActionSpace (shape : list nat)
| DiscreteActionSpace (actions : list nat)
| OtherActionSpace (class_name : string).

Definition isinstance_Box (a : ActionSpace) : bool :=
  match a with BoxActionSpace _ => true | _ => false end.

Definition isinstance_Discrete (a : ActionSpace) : bool :=
  match a with DiscreteActionSpace _ => true | _ => false end.

Record SpacesDefinition : Type := mkSpaces { action : ActionSpace }.

End spaces.

Module head.

(** Modelled from the spec: the tag of [rl_coach]'s [head] module that
    marks an output of a loss block as the loss itself. *)
Definition LOSS_OUT_TYPE_LOSS : string := "loss".

(** Modelled from the spec: the schema of a loss block, the names of the
    head outputs, agent inputs and targets that it consumes. *)
Record LossInputSchema : Type := mkLossInputSchema {
  head_outputs : list string;
  agent_inputs : list string;
  targets : list string
}.

Variant AgentParameters : Type := agent_parameters_of (agent : string).

Variant ReturnType : Type := QActionStateValue.

(** Modelled from the spec: the attributes that the base class [Head]
    keeps, its constructor arguments as they are and no return type
    yet. *)
Record Head : Type := mkHead {
  ap : AgentParameters;
  spaces : spaces.SpacesDefinition;
  network_name : string;
  head_type_idx : Z;
  loss_weight : Q;
  is_local : bool;
  activation_function : string;
  dense_layer : option string;
  return_type : option ReturnType
}.

Definition with_return_type (r : ReturnType) (h : Head) : Head :=
  {| ap := ap h; spaces := spaces h; network_name := network_name h;
     head_type_idx := head_type_idx h; loss_weight := loss_weight h;
     is_local := is_local h; activation_function := activation_function h;
     dense_layer := dense_layer h; return_type := Some r |}.

End head.

(** ** Constructors as state-and-error computations over [self] *)

Definition Init (S A : Type) : Type := S -> S * result A.

Definition init_ret {S A : Type} (a : A) : Init S A := fun self => (self, Ok a).

Definition init_bind {S A B : Type} (c : Init S A) (k : A -> Init S B) : Init S B :=
  fun self =>
    match c self with
    | (self', Ok a) => k a self'
    | (self', Raise e) => (self', Raise e)
    end.

#[global] Instance init_mret {S : Type} : MRet (Init S) := fun A a => init_ret a.

#[global] Instance init_mbind {S : Type} : MBind (Init S) := fun A B k c => init_bind c k.

(** [assert cond, msg] *)
Definition assert_ {S : Type} (cond : bool) (msg : string) : Init S unit :=
  fun self => (self, if cond then Ok tt else Raise (AssertionError msg)).

Definition pass {S : Type} : Init S unit := init_ret tt.

(** ** [class QHeadLoss(HeadLoss)] *)

Module QHeadLoss.

(** [_weight] and [_batch_axis] are kept by the base class constructor,
    [loss_fn] by [__init__] below. *)
Record t : Type := mk {
  _weight : Q;
  _batch_axis : Z;
  loss_fn : gluon.Loss
}.

(** [__init__(self, loss_type=L2Loss, weight=1, batch_axis=0)]; an
    argument that the caller leaves out is [None] here. *)
Definition __init__ (loss_type : option gluon.LossType) (weight : option Q)
           (batch_axis : option Z) : t :=
  let loss_type := default gluon.L2Loss loss_type in
  let weight := default 1%Q weight in
  let batch_axis := default 0%Z batch_axis in
  {| _weight := weight;
     _batch_axis := batch_axis;
     loss_fn := gluon.mkLoss loss_type weight batch_axis |}.

Definition input_schema (self : t) : head.LossInputSchema :=
  {| head.head_outputs := ["pred"];
     head.agent_inputs := [];
     head.targets := ["target"] |}.

(** [loss_forward(self, F, pred, target)]; the backend [F] is not used by
    the body. *)
Definition loss_forward (self : t) (pred target : nd.Matrix)
  : result (list (nd.NDArray * string)) :=
  per_sample ← gluon.call (loss_fn self) pred target;
  loss ← nd.mean per_sample;
  Ok [(loss, head.LOSS_OUT_TYPE_LOSS)].

End QHeadLoss.

(** ** [class QHead(Head)] *)

Module QHead.

(** The arguments of the constructor. *)
Module Args.
Record t : Type := mk {
  agent_parameters : head.AgentParameters;
  spaces : spaces.SpacesDefinition;
  network_name : string;
  head_type_idx : Z;
  loss_weight : Q;
  is_local : bool;
  activation_function : string;
  dense_layer : option string;
  loss_type : gluon.LossType
}.

(** The call [QHead(agent_parameters, spaces, network_name)], every
    other argument at its default. *)
Definition defaults (agent_parameters : head.AgentParameters)
           (spaces : spaces.SpacesDefinition) (network_name : string) : t :=
  {| agent_parameters := agent_parameters; spaces := spaces;
     network_name := network_name; head_type_idx := 0; loss_weight := 1;
     is_local := true; activation_function := "relu"; dense_layer := None;
     loss_type := gluon.L2Loss |}.
End Args.

(** A head object: the attributes of the base class, and the three
    attributes assigned by [__init__] below. *)
Record t : Type := mk {
  base : head.Head;
  num_actions : option nat;
  loss_type : option gluon.LossType;
  dense : option gluon.Dense
}.

Definition set_num_actions (n : nat) : Init t unit := fun self =>
  (mk (base self) (Some n) (loss_type self) (dense self), Ok tt).

Definition set_return_type (r : head.ReturnType) : Init t unit := fun self =>
  (mk (head.with_return_type r (base self)) (num_actions self) (loss_type self)
      (dense self), Ok tt).

Definition set_loss_type (l : gluon.LossType) : Init t unit := fun self =>
  (mk (base self) (num_actions self) (Some l) (dense self), Ok tt).

Definition set_dense (d : gluon.Dense) : Init t unit := fun self =>
  (mk (base self) (num_actions self) (loss_type self) (Some d), Ok tt).

Definition get_action : Init t spaces.ActionSpace := fun self =>
  (self, Ok (spaces.action (head.spaces (base self)))).

(** Reading [self.num_actions]. *)
Definition get_num_actions : Init t nat := fun self =>
  (self, match num_actions self with
         | Some n => Ok n
         | None => Raise (AttributeError "num_actions")
         end).

(** [super(QHead, self).__init__(...)]: the object as the base class
    leaves it. *)
Definition super__init__ (a : Args.t) : t :=
  {| base := {| head.ap := Args.agent_parameters a;
                head.spaces := Args.spaces a;
                head.network_name := Args.network_name a;
                head.head_type_idx := Args.head_type_idx a;
                head.loss_weight := Args.loss_weight a;
                head.is_local := Args.is_local a;
                head.activation_function := Args.activation_function a;
                head.dense_layer := Args.dense_layer a;
                head.return_type := None |};
     num_actions := None; loss_type := None; dense := None |}.

(** The body of [__init__] after the call to the base class. *)
Definition init_body (a : Args.t) : Init t unit :=
  action ← get_action;
  match action with
  | spaces.BoxActionSpace _ => set_num_actions 1
  | spaces.DiscreteActionSpace actions => set_num_actions (length actions)
  | spaces.OtherActionSpace _ => pass
  end;;
  set_return_type head.QActionStateValue;;
  assert_ (gluon.class_eqb (Args.loss_type a) gluon.L2Loss
           || gluon.class_eqb (Args.loss_type a) gluon.HuberLoss)
          "Only expecting L2Loss or HuberLoss.";;
  set_loss_type (Args.loss_type a);;
  units ← get_num_actions;
  set_dense (gluon.Dense__init__ units None).

(** [__init__]: the object as the constructor leaves it, and whether the
    constructor returned or raised. *)
Definition __init__ (a : Args.t) : t * result unit :=
  init_body a (super__init__ a).

(** The call [QHead(...)]: the new object, unless [__init__] raised. *)
Definition new (a : Args.t) : result t :=
  match __init__ a with
  | (self, Ok _) => Ok self
  | (_, Raise e) => Raise e
  end.

(** [loss(self)]: a new [QHeadLoss] block is allocated at an address that
    the heap does not use yet. *)
Definition loss (self : t) (heap : gmap nat QHeadLoss.t)
  : result (nat * gmap nat QHeadLoss.t) :=
  match loss_type self with
  | None => Raise (AttributeError "loss_type")
  | Some loss_type =>
      let block := QHeadLoss.__init__ (Some loss_type)
                                      (Some (head.loss_weight (base self))) None in
      let addr := fresh (dom heap) in
      Ok (addr, <[addr := block]> heap)
  end.

(** [hybrid_forward(self, F, x)]. The dense layer binds its parameters on
    its first call ([init] is the initializer of the surrounding
    network), so the head is returned along with the output. *)
Definition hybrid_forward (init : nat -> nat -> Q) (self : t) (x : nd.Matrix)
  : result (t * nd.Matrix) :=
  match dense self with
  | None => Raise (AttributeError "dense")
  | Some d =>
      '(d', out) ← gluon.Dense_call init d x;
      Ok (mk (base self) (num_actions self) (loss_type self) (Some d'), out)
  end.

End QHead.

(** ** Definitions that follow the specification's words

    They are compared below with the definitions taken from the source. *)

Module spec.

(** The loss kinds that a head supports. *)
Definition supported (l : gluon.LossType) : Prop :=
  l = gluon.L2Loss \/ l = gluon.HuberLoss.

(** [f 0 + f 1 + ... + f (n - 1)]. *)
Definition big_sum (n : nat) (f : nat -> Q) : Q :=
  fold_left (fun acc k => (acc + f k)%Q) (seq 0 n) 0%Q.

(** The entry in row [i] and column [j]. *)
Definition entry (m : list (list Q)) (i j : nat) : Q := nth j (nth i m []) 0%Q.

Definition of_nat (n : nat) : Q := inject_Z (Z.of_nat n).

(** "Computes the elementwise loss and reduces by averaging over all
    non-batch dimensions per sample, then averages again across the batch
    to a single scalar", for predictions and targets of [rows] rows and
    [cols] columns: with batch axis 0 the samples are the rows, with batch
    axis 1 the columns. *)
Definition compute (elem : Q -> Q -> Q) (batch_axis : Z) (rows cols : nat)
           (pred target : list (list Q)) : Q :=
  let loss i j := elem (entry pred i j) (entry target i j) in
  if bool_decide (batch_axis = 0%Z) then
    (big_sum rows (fun i => big_sum cols (fun j => loss i j) / of_nat cols)
     / of_nat rows)%Q
  else
    (big_sum cols (fun j => big_sum rows (fun i => loss i j) / of_nat rows)
     / of_nat cols)%Q.

(** "A pure affine transform" from [in_units] inputs to [units] outputs:
    [y_ij = sum_k x_ik * w_jk + b_j]. *)
Definition affine (units in_units : nat) (w : list (list Q)) (b : list Q)
           (x : list (list Q)) : list (list Q) :=
  map (fun row =>
         map (fun j => (big_sum in_units (fun k => nth k row 0 * entry w j k)
                        + nth j b 0)%Q)
             (seq 0 units))
      x.

End spec.

(** The action space is of neither class that [QHead.__init__] tests for. *)
Definition other_action_space (a : QHead.Args.t) : Prop :=
  spaces.isinstance_Box (spaces.action (QHead.Args.spaces a)) = false
  /\ spaces.isinstance_Discrete (spaces.action (QHead.Args.spaces a)) = false.

(** The arguments [a], with another activation function. *)
Definition with_activation_function (f : string) (a : QHead.Args.t) : QHead.Args.t :=
  {| QHead.Args.agent_parameters := QHead.Args.agent_parameters a;
     QHead.Args.spaces := QHead.Args.spaces a;
     QHead.Args.network_name := QHead.Args.network_name a;
     QHead.Args.head_type_idx := QHead.Args.head_type_idx a;
     QHead.Args.loss_weight := QHead.Args.loss_weight a;
     QHead.Args.is_local := QHead.Args.is_local a;
     QHead.Args.activation_function := f;
     QHead.Args.dense_layer := QHead.Args.dense_layer a;
     QHead.Args.loss_type := QHead.Args.loss_type a |}.

(** The arguments [a], with another loss type. *)
Definition with_loss_type (l : gluon.LossType) (a : QHead.Args.t) : QHead.Args.t :=
  {| QHead.Args.agent_parameters := QHead.Args.agent_parameters a;
     QHead.Args.spaces := QHead.Args.spaces a;
     QHead.Args.network_name := QHead.Args.network_name a;
     QHead.Args.head_type_idx := QHead.Args.head_type_idx a;
     QHead.Args.loss_weight := QHead.Args.loss_weight a;
     QHead.Args.is_local := QHead.Args.is_local a;
     QHead.Args.activation_function := QHead.Args.activation_function a;
     QHead.Args.dense_layer := QHead.Args.dense_layer a;
     QHead.Args.loss_type := l |}.

(** The head after its first forward pass on an input of width [D], for a
    head of [n] actions: the parameters of the dense layer are allocated. *)
Definition after_first_call (init : nat -> nat -> Q) (D n : nat) (self : QHead.t)
  : QHead.t :=
  QHead.mk (QHead.base self) (QHead.num_actions self) (QHead.loss_type self)
    (Some (gluon.mkDense n None (Some (gluon.initial_weight init n D))
                         (Some (replicate n 0%Q)))).

(** The head [self] with the parameters of its dense layer of [n] units set
    to [w] and [b], as an optimizer leaves them. *)
Definition with_parameters (n : nat) (w : nd.Matrix) (b : list Q) (self : QHead.t)
  : QHead.t :=
  QHead.mk (QHead.base self) (QHead.num_actions self) (QHead.loss_type self)
    (Some (gluon.mkDense n None (Some w) (Some b))).

(** ** Concrete inputs used by the examples *)

Module examples.

Definition agent : head.AgentParameters := head.agent_parameters_of "dqn".

Definition discrete3 : QHead.Args.t :=
  QHead.Args.defaults agent
    (spaces.mkSpaces (spaces.DiscreteActionSpace [0; 1; 2]%nat)) "main".

Definition box : QHead.Args.t :=
  QHead.Args.defaults agent (spaces.mkSpaces (spaces.BoxActionSpace [2%nat])) "main".

Definition multi_select : QHead.Args.t :=
  QHead.Args.defaults agent
    (spaces.mkSpaces (spaces.OtherActionSpace "MultiSelectActionSpace")) "main".

(** [mxnet.gluon.loss.L1Loss], the absolute error scaled by [weight]. *)
Definition L1Loss : gluon.LossType :=
  gluon.OtherLoss "L1Loss" (fun weight batch_axis pred label =>
    label ← nd.reshape_like label pred;
    loss ← nd.elemwise (fun p l => (Qabs (l - p) * weight)%Q) pred label;
    nd.mean_exclude batch_axis loss).

Definition init (j k : nat) : Q := inject_Z (Z.of_nat (j + k)).

Definition x22 : nd.Matrix := [[1; 2]; [3; 4]]%Q.

End examples.

(** ** Repeated use of a head *)

(** [n] successive calls of [self.loss()], each on the heap that the call
    before it left: the addresses of the blocks in the order of the calls,
    and the final heap. *)
Fixpoint loss_n (self : QHead.t) (n : nat) (heap : gmap nat QHeadLoss.t)
  : result (list nat * gmap nat QHeadLoss.t) :=
  match n with
  | O => Ok ([], heap)
  | S k =>
      '(r, heap1) ← QHead.loss self heap;
      '(rs, heap2) ← loss_n self k heap1;
      Ok (r :: rs, heap2)
  end.

(** What [__init__] establishes between the attributes of a head: the
    dense layer has [num_actions] units and no activation. *)
Definition units_match (self : QHead.t) : Prop :=
  exists n d, QHead.num_actions self = Some n /\ QHead.dense self = Some d
              /\ gluon._units d = n /\ gluon.act d = None.

(** * Properties *)

(** ** Construction of a head *)

Section construction.

Import spaces gluon.

Lemma class_check_supported (l : LossType) :
  class_eqb l L2Loss || class_eqb l HuberLoss = true <-> spec.supported l.
Proof.
  unfold spec.supported. destruct l; simpl; split; intros H;
    try (destruct H as [H | H]); auto; discriminate.
Qed.

Lemma class_check_unsupported (l : LossType) :
  class_eqb l L2Loss || class_eqb l HuberLoss = false <-> ~ spec.supported l.
Proof.
  rewrite <- class_check_supported.
  destruct (class_eqb l L2Loss || class_eqb l HuberLoss); split; intros H;
    done.
Qed.

(** What [__init__] does, by the class of the action space and of the
    loss. *)
Lemma init_unsupported_loss (a : QHead.Args.t) :
  ~ spec.supported (QHead.Args.loss_type a) ->
  snd (QHead.__init__ a) = Raise (AssertionError "Only expecting L2Loss or HuberLoss.")
  /\ QHead.loss_type (fst (QHead.__init__ a)) = None
  /\ QHead.dense (fst (QHead.__init__ a)) = None.
Proof.
  intros H%class_check_unsupported.
  destruct a as [ap [act] nn idx w loc af dl lt]; simpl in H.
  unfold QHead.__init__, QHead.init_body; destruct act; cbn; rewrite H; cbn; auto.
Qed.

Lemma init_supported_loss (a : QHead.Args.t) :
  spec.supported (QHead.Args.loss_type a) ->
  let self := fst (QHead.__init__ a) in
  QHead.loss_type self = Some (QHead.Args.loss_type a)
  /\ QHead.base self
     = head.with_return_type head.QActionStateValue (QHead.base (QHead.super__init__ a))
  /\ match action (QHead.Args.spaces a) with
     | BoxActionSpace _ =>
         snd (QHead.__init__ a) = Ok tt /\ QHead.num_actions self = Some 1
         /\ QHead.dense self = Some (Dense__init__ 1 None)
     | DiscreteActionSpace actions =>
         snd (QHead.__init__ a) = Ok tt
         /\ QHead.num_actions self = Some (length actions)
         /\ QHead.dense self = Some (Dense__init__ (length actions) None)
     | OtherActionSpace _ =>
         snd (QHead.__init__ a) = Raise (AttributeError "num_actions")
         /\ QHead.num_actions self = None /\ QHead.dense self = None
     end.
Proof.
  intros H%class_check_supported.
  destruct a as [ap [act] nn idx w loc af dl lt]; simpl in H.
  unfold QHead.__init__, QHead.init_body; destruct act; cbn; rewrite H; cbn; auto.
Qed.

Lemma new_init (a : QHead.Args.t) (self : QHead.t) :
  QHead.new a = Ok self <-> QHead.__init__ a = (self, Ok tt).
Proof.
  unfold QHead.new. destruct (QHead.__init__ a) as [s [[] | e]]; split; intros H;
    by inversion H.
Qed.

Lemma new_raise (a : QHead.Args.t) (e : exn) :
  QHead.new a = Raise e <-> snd (QHead.__init__ a) = Raise e.
Proof.
  unfold QHead.new. destruct (QHead.__init__ a) as [s [[] | e']]; simpl; split;
    intros H; by inversion H.
Qed.

(** A constructed head was given a supported loss type and an action
    space of one of the two classes, and has every attribute assigned. *)
Lemma new_inv (a : QHead.Args.t) (self : QHead.t) :
  QHead.new a = Ok self ->
  spec.supported (QHead.Args.loss_type a)
  /\ QHead.loss_type self = Some (QHead.Args.loss_type a)
  /\ head.loss_weight (QHead.base self) = QHead.Args.loss_weight a
  /\ exists n, QHead.num_actions self = Some n
               /\ QHead.dense self = Some (Dense__init__ n None)
               /\ match action (QHead.Args.spaces a) with
                  | BoxActionSpace _ => n = 1
                  | DiscreteActionSpace actions => n = length actions
                  | OtherActionSpace _ => False
                  end.
Proof.
  intros Hnew%new_init.
  destruct (class_eqb (QHead.Args.loss_type a) L2Loss
            || class_eqb (QHead.Args.loss_type a) HuberLoss) eqn:Hc.
  - apply class_check_supported in Hc.
    destruct (init_supported_loss a Hc) as (Hl & Hb & Hact).
    rewrite Hnew in Hl, Hb, Hact; simpl in Hl, Hb, Hact.
    split; [done|]. split; [done|]. split; [by rewrite Hb|].
    destruct (action (QHead.Args.spaces a)); destruct Hact as (H1 & H2 & H3);
      try discriminate; eauto.
  - apply class_check_unsupported in Hc.
    destruct (init_unsupported_loss a Hc) as (Hr & _).
    rewrite Hnew in Hr. discriminate.
Qed.

(** Construction succeeds on every supported configuration. *)
Lemma new_succeeds (a : QHead.Args.t) :
  spec.supported (QHead.Args.loss_type a) ->
  ~ other_action_space a ->
  exists self, QHead.new a = Ok self.
Proof.
  intros Hs Ho. destruct (init_supported_loss a Hs) as (_ & _ & Hact).
  unfold other_action_space in Ho.
  destruct (QHead.__init__ a) as [self r] eqn:Hi; simpl in Hact.
  exists self. apply new_init. rewrite Hi.
  destruct (action (QHead.Args.spaces a)); simpl in Ho.
  - destruct Hact as (-> & _); done.
  - destruct Hact as (-> & _); done.
  - exfalso; apply Ho; done.
Qed.

End construction.

(** C3: construction raises an assertion error exactly when [loss_type] is
    neither [L2Loss] nor [HuberLoss]; with either of the two the check
    passes (a failure, if any, is not an assertion error) and the value is
    stored unchanged in the head. *)
Theorem construction_asserts_loss_type (a : QHead.Args.t) :
  ((exists msg, QHead.new a = Raise (AssertionError msg))
   <-> (QHead.Args.loss_type a <> gluon.L2Loss
        /\ QHead.Args.loss_type a <> gluon.HuberLoss))
  /\ (QHead.Args.loss_type a = gluon.L2Loss \/ QHead.Args.loss_type a = gluon.HuberLoss ->
      QHead.loss_type (fst (QHead.__init__ a)) = Some (QHead.Args.loss_type a)
      /\ forall msg, QHead.new a <> Raise (AssertionError msg))
  /\ (forall self, QHead.new a = Ok self ->
      QHead.loss_type self = Some (QHead.Args.loss_type a)).
Proof.
  split; [split|split].
  - intros [msg Hr]. apply new_raise in Hr.
    cut (~ spec.supported (QHead.Args.loss_type a)).
    { unfold spec.supported. tauto. }
    intros Hs. destruct (init_supported_loss a Hs) as (_ & _ & Hact).
    destruct (spaces.action (QHead.Args.spaces a));
      destruct Hact as (Hr' & _); rewrite Hr in Hr'; discriminate.
  - intros [H1 H2]. eexists. apply new_raise.
    apply init_unsupported_loss. unfold spec.supported. tauto.
  - intros Hs. destruct (init_supported_loss a Hs) as (Hl & _ & Hact).
    split; [exact Hl|]. intros msg Hr%new_raise.
    destruct (spaces.action (QHead.Args.spaces a));
      destruct Hact as (Hr' & _); rewrite Hr in Hr'; discriminate.
  - intros self Hnew. by destruct (new_inv a self Hnew) as (_ & Hl & _).
Qed.

Lemma construction_asserts_loss_type_witness :
  (exists msg,
      QHead.new (with_loss_type examples.L1Loss examples.discrete3)
      = Raise (AssertionError msg))
  /\ QHead.loss_type
       (fst (QHead.__init__ (with_loss_type gluon.HuberLoss examples.multi_select)))
     = Some gluon.HuberLoss.
Proof.
  split.
  - apply (construction_asserts_loss_type
             (with_loss_type examples.L1Loss examples.discrete3)).
    split; discriminate.
  - apply (proj1 (proj2 (construction_asserts_loss_type
                           (with_loss_type gluon.HuberLoss examples.multi_select)))).
    right; reflexivity.
Defined.

Lemma init_other_num_actions (a : QHead.Args.t) :
  other_action_space a -> QHead.num_actions (fst (QHead.__init__ a)) = None.
Proof.
  intros [Hb Hd].
  destruct a as [ap [act] nn idx w loc af dl lt]; simpl in Hb, Hd.
  destruct act; try discriminate.
  unfold QHead.__init__, QHead.init_body; cbn.
  destruct (gluon.class_eqb lt gluon.L2Loss || gluon.class_eqb lt gluon.HuberLoss);
    reflexivity.
Qed.

(** C9, as the code has it: over an action space that is neither a
    [BoxActionSpace] nor a [DiscreteActionSpace], [num_actions] is never
    assigned and construction does not complete. With [L2Loss] or
    [HuberLoss] it is the allocation of the dense layer that fails, with an
    attribute error; with any other loss type the assertion on [loss_type],
    which comes first, fails instead. *)
Theorem other_action_space_not_constructed (a : QHead.Args.t) :
  other_action_space a ->
  QHead.num_actions (fst (QHead.__init__ a)) = None
  /\ QHead.dense (fst (QHead.__init__ a)) = None
  /\ (exists e, QHead.new a = Raise e)
  /\ (QHead.Args.loss_type a = gluon.L2Loss \/ QHead.Args.loss_type a = gluon.HuberLoss ->
      QHead.new a = Raise (AttributeError "num_actions"))
  /\ (QHead.Args.loss_type a <> gluon.L2Loss /\ QHead.Args.loss_type a <> gluon.HuberLoss ->
      QHead.new a = Raise (AssertionError "Only expecting L2Loss or HuberLoss.")).
Proof.
  intros Ho. pose proof (init_other_num_actions a Ho) as Hn.
  destruct Ho as [Hb Hd].
  assert (Hsup : spec.supported (QHead.Args.loss_type a) ->
                 QHead.new a = Raise (AttributeError "num_actions")
                 /\ QHead.dense (fst (QHead.__init__ a)) = None).
  { intros Hs. destruct (init_supported_loss a Hs) as (_ & _ & Hact).
    destruct (spaces.action (QHead.Args.spaces a)); try discriminate.
    destruct Hact as (Hr & _ & Hdense). split; [by apply new_raise | done]. }
  assert (Hunsup : ~ spec.supported (QHead.Args.loss_type a) ->
                   QHead.new a = Raise (AssertionError "Only expecting L2Loss or HuberLoss.")
                   /\ QHead.dense (fst (QHead.__init__ a)) = None).
  { intros Hs. destruct (init_unsupported_loss a Hs) as (Hr & _ & Hdense).
    split; [by apply new_raise | done]. }
  split; [exact Hn|].
  destruct (gluon.class_eqb (QHead.Args.loss_type a) gluon.L2Loss
            || gluon.class_eqb (QHead.Args.loss_type a) gluon.HuberLoss) eqn:Hc.
  - apply class_check_supported in Hc. destruct (Hsup Hc) as [Hr Hdense].
    split; [exact Hdense|]. split; [eauto|]. split; [auto|].
    intros [H1 H2]. destruct Hc; contradiction.
  - apply class_check_unsupported in Hc. destruct (Hunsup Hc) as [Hr Hdense].
    split; [exact Hdense|]. split; [eauto|]. split; [|auto].
    intros Hs. contradiction.
Qed.

Lemma other_action_space_not_constructed_witness :
  QHead.new examples.multi_select = Raise (AttributeError "num_actions").
Proof.
  apply (other_action_space_not_constructed examples.multi_select).
  - split; reflexivity.
  - left; reflexivity.
Defined.

(** C9 as stated fails: over an action space of another class and with a
    loss type that is not supported, construction stops at the assertion on
    [loss_type], not at an attribute error. *)
Lemma other_action_space_attribute_error_counterexample :
  other_action_space (with_loss_type examples.L1Loss examples.multi_select)
  /\ QHead.new (with_loss_type examples.L1Loss examples.multi_select)
     = Raise (AssertionError "Only expecting L2Loss or HuberLoss.")
  /\ ~ (forall a : QHead.Args.t,
          other_action_space a -> exists attr, QHead.new a = Raise (AttributeError attr)).
Proof.
  split; [split; reflexivity|]. split; [reflexivity|].
  intros H.
  destruct (H (with_loss_type examples.L1Loss examples.multi_select)) as [attr Hr].
  { split; reflexivity. }
  discriminate Hr.
Qed.

(** ** Sums *)

Section sums.

Local Open Scope Q_scope.

(** Addition of rationals is a monoid for Leibniz equality, so sums can be
    re-associated without leaving [=]. *)
Lemma Qplus_0_l_eq (x : Q) : 0 + x = x.
Proof. destruct x as [n d]. unfold Qplus. simpl. f_equal. lia. Qed.

Lemma Qplus_0_r_eq (x : Q) : x + 0 = x.
Proof. destruct x as [n d]. unfold Qplus. simpl. f_equal; lia. Qed.

Lemma Qplus_assoc_eq (x y z : Q) : x + (y + z) = (x + y) + z.
Proof.
  destruct x as [xn xd], y as [yn yd], z as [zn zd]. unfold Qplus. simpl.
  f_equal; [|lia]. rewrite !Pos2Z.inj_mul. ring.
Qed.

Lemma big_sum_S (n : nat) (f : nat -> Q) :
  spec.big_sum (S n) f = spec.big_sum n f + f n.
Proof.
  unfold spec.big_sum. rewrite seq_S, fold_left_app. reflexivity.
Qed.

Lemma big_sum_ext (n : nat) (f g : nat -> Q) :
  (forall k, (k < n)%nat -> f k = g k) -> spec.big_sum n f = spec.big_sum n g.
Proof.
  induction n as [|n IH]; intros Hfg; [reflexivity|].
  rewrite !big_sum_S, IH, Hfg; auto with lia.
Qed.

Lemma big_sum_front (n : nat) (f : nat -> Q) :
  spec.big_sum (S n) f = f 0%nat + spec.big_sum n (fun k => f (S k)).
Proof.
  induction n as [|n IH].
  - unfold spec.big_sum. simpl. by rewrite Qplus_0_l_eq, Qplus_0_r_eq.
  - rewrite big_sum_S, IH, (big_sum_S n). by rewrite Qplus_assoc_eq.
Qed.

(** The sum of the backend, over a list given by its entries. *)
Lemma sum_map_seq (n : nat) (f : nat -> Q) :
  nd.sum (map f (seq 0 n)) = spec.big_sum n f.
Proof.
  revert f. induction n as [|n IH]; intros f; [reflexivity|].
  rewrite big_sum_front, <- IH. simpl. by rewrite <- seq_shift, map_map.
Qed.

Lemma list_as_map_nth (v : list Q) :
  v = map (fun k => nth k v 0) (seq 0 (length v)).
Proof.
  induction v as [|x v IH]; [reflexivity|].
  simpl. f_equal. by rewrite <- seq_shift, map_map.
Qed.

Lemma sum_big_sum (v : list Q) :
  nd.sum v = spec.big_sum (length v) (fun k => nth k v 0).
Proof. rewrite <- sum_map_seq. by rewrite <- list_as_map_nth. Qed.

Lemma mean_list_big_sum (v : list Q) (n : nat) :
  length v = n ->
  nd.mean_list v = spec.big_sum n (fun k => nth k v 0) / spec.of_nat n.
Proof. intros <-. unfold nd.mean_list. by rewrite sum_big_sum. Qed.

Lemma zip_with_as_map {A B C : Type} (f : A -> B -> C) (a : list A) (b : list B)
      (da : A) (db : B) (n : nat) :
  length a = n -> length b = n ->
  zip_with f a b = map (fun j => f (nth j a da) (nth j b db)) (seq 0 n).
Proof.
  revert b n. induction a as [|x a IH]; intros [|y b] [|n] Ha Hb; try discriminate.
  - reflexivity.
  - simpl in *. f_equal. rewrite (IH b n); [|lia|lia].
    by rewrite <- seq_shift, map_map.
Qed.

Lemma nth_zip_with {A B C : Type} (f : A -> B -> C) (a : list A) (b : list B)
      (da : A) (db : B) (dc : C) (j : nat) :
  (j < length a)%nat -> (j < length b)%nat ->
  nth j (zip_with f a b) dc = f (nth j a da) (nth j b db).
Proof.
  revert b j. induction a as [|x a IH]; intros [|y b] [|j] Ha Hb; simpl in *; try lia.
  - reflexivity.
  - apply IH; lia.
Qed.

End sums.

(** ** The forward pass *)

Section forward.

Import gluon.

Lemma hd_length (x : nd.Matrix) (B D : nat) :
  nd.has_shape x B D -> length (hd [] x) = D.
Proof.
  intros (HB & _ & Hlen & Hrows). destruct x as [|row x]; simpl in *; [lia|].
  by inversion Hrows.
Qed.

Lemma has_shape_not_empty (x : nd.Matrix) (B D : nat) :
  nd.has_shape x B D -> nd.is_empty x = false.
Proof.
  intros (HB & HD & Hlen & Hrows). unfold nd.is_empty.
  destruct x as [|row x]; simpl in *; [lia|].
  inversion Hrows as [|? ? Hrow _]; subst. destruct row; simpl in *; [lia|done].
Qed.

Lemma shape_of_matrix (y : nd.Matrix) (B n : nat) :
  nd.has_shape y B n -> nd.shape (nd.matrix y) = [B; n].
Proof.
  intros Hy. simpl. rewrite (hd_length y B n Hy). by destruct Hy as (_ & _ & -> & _).
Qed.

Lemma initial_weight_rows (init : nat -> nat -> Q) (units in_units : nat) :
  length (initial_weight init units in_units) = units
  /\ Forall (fun w => length w = in_units) (initial_weight init units in_units).
Proof.
  unfold initial_weight. split.
  - by rewrite length_map, length_seq.
  - apply Forall_map, Forall_forall. intros j _. simpl.
    by rewrite length_map, length_seq.
Qed.

Lemma affine_shape (n D : nat) (w : nd.Matrix) (b : list Q) (x : nd.Matrix) (B : nat) :
  1 <= B -> 1 <= n -> length x = B ->
  nd.has_shape (spec.affine n D w b x) B n.
Proof.
  intros HB Hn Hx. unfold spec.affine. repeat split; try done.
  - by rewrite length_map.
  - apply Forall_map, Forall_forall. intros row _. simpl.
    by rewrite length_map, length_seq.
Qed.

(** On a batch of the width of the weights the backend computes the affine
    map, entry by entry. *)
Lemma FullyConnected_affine (x w : nd.Matrix) (b : list Q) (B D n : nat) :
  nd.has_shape x B D -> 1 <= n ->
  length w = n -> Forall (fun wj => length wj = D) w -> length b = n ->
  nd.FullyConnected x w b n = Ok (spec.affine n D w b x).
Proof.
  intros Hx Hn Hw Hrows Hb. unfold nd.FullyConnected.
  rewrite (has_shape_not_empty x B D Hx).
  destruct Hx as (_ & _ & _ & Hx).
  rewrite bool_decide_eq_true_2.
  - f_equal. unfold spec.affine. apply map_ext_in. intros row Hrow.
    assert (Hlen : length row = D).
    { rewrite Forall_forall in Hx. apply Hx. by apply list_elem_of_In. }
    rewrite (zip_with_as_map _ w b [] 0%Q n Hw Hb).
    apply map_ext_in. intros j Hj%in_seq. f_equal.
    assert (Hwj : length (nth j w []) = D).
    { apply Forall_nth; [done | lia]. }
    unfold nd.dot, spec.entry.
    rewrite (zip_with_as_map Qmult row (nth j w []) 0%Q 0%Q D Hlen Hwj).
    apply sum_map_seq.
  - split; [done|]. split; [done|]. split; [done|].
    eapply Forall_impl; [exact Hrows|]. intros wj Hwj. simpl in Hwj.
    eapply Forall_impl; [exact Hx|]. intros row Hrow. simpl in *. congruence.
Qed.

(** The backend returns on tensors only: a batch that it accepts against
    weights of [n >= 1] rows of width [D] has shape [(B, D)]. *)
Lemma FullyConnected_inv (x w : nd.Matrix) (b : list Q) (D n : nat) (y : nd.Matrix) :
  Forall (fun wj => length wj = D) w ->
  nd.FullyConnected x w b n = Ok y ->
  1 <= n /\ nd.has_shape x (length x) D.
Proof.
  intros Hrows. unfold nd.FullyConnected.
  destruct (nd.is_empty x) eqn:Hne; [discriminate|].
  case_bool_decide as Hc; [|discriminate]. intros _.
  destruct Hc as (Hn & Hw & _ & Hall). split; [done|].
  destruct w as [|w0 w]; simpl in Hw; [lia|].
  inversion Hrows as [|? ? Hw0 _]; subst. inversion Hall as [|? ? Hx _]; subst.
  unfold nd.is_empty in Hne.
  destruct x as [|row x]; [discriminate|].
  repeat split; simpl; try lia; [|done].
  destruct (length w0) eqn:HD; [|lia]. exfalso.
  assert (Hnil : concat (row :: x) = []).
  { clear Hne Hall. induction Hx as [|r rs Hr _ IH]; [done|].
    simpl. destruct r; [exact IH | discriminate]. }
  by rewrite Hnil in Hne.
Qed.

Lemma bind_params_fresh (init : nat -> nat -> Q) (D n : nat) (f : option (Q -> Q)) :
  bind_params init D (Dense__init__ n f)
  = mkDense n f (Some (initial_weight init n D)) (Some (replicate n 0%Q)).
Proof. reflexivity. Qed.

Lemma bind_params_bound (init : nat -> nat -> Q) (D : nat) (d : Dense)
      (w : nd.Matrix) (b : list Q) :
  weight d = Some w -> bias d = Some b -> bind_params init D d = d.
Proof. intros Hw Hb. unfold bind_params. by rewrite Hw, Hb. Qed.

Lemma bind_params_keeps (init : nat -> nat -> Q) (D : nat) (d : Dense) :
  _units (bind_params init D d) = _units d
  /\ act (bind_params init D d) = act d.
Proof. unfold bind_params. by destruct (weight d), (bias d). Qed.

(** The first pass of a head of [n >= 1] actions allocates the parameters
    of its layer and returns the affine image of the input. *)
Lemma hybrid_forward_fresh (init : nat -> nat -> Q) (self : QHead.t) (x : nd.Matrix)
      (B D n : nat) :
  QHead.dense self = Some (Dense__init__ n None) ->
  1 <= n -> nd.has_shape x B D ->
  QHead.hybrid_forward init self x
  = Ok (after_first_call init D n self,
        spec.affine n D (initial_weight init n D) (replicate n 0%Q) x).
Proof.
  intros Hd Hn Hx. unfold QHead.hybrid_forward. rewrite Hd.
  unfold Dense_call. rewrite (hd_length x B D Hx), bind_params_fresh. simpl.
  unfold Dense_hybrid_forward. simpl.
  destruct (initial_weight_rows init n D) as [Hw Hrows].
  rewrite (FullyConnected_affine x _ _ B D n); try done.
  by rewrite length_replicate.
Qed.

(** A pass of a head whose layer has parameters [w] and [b] returns the
    affine image of the input by [w] and [b] and leaves the head alone. *)
Lemma hybrid_forward_bound (init : nat -> nat -> Q) (self : QHead.t) (x w : nd.Matrix)
      (b : list Q) (B D n : nat) :
  1 <= n -> length w = n -> Forall (fun wj => length wj = D) w -> length b = n ->
  nd.has_shape x B D ->
  QHead.hybrid_forward init (with_parameters n w b self) x
  = Ok (with_parameters n w b self, spec.affine n D w b x).
Proof.
  intros Hn Hw Hrows Hb Hx. unfold QHead.hybrid_forward, with_parameters at 1. simpl.
  unfold Dense_call, bind_params. simpl. unfold Dense_hybrid_forward. simpl.
  by rewrite (FullyConnected_affine x w b B D n).
Qed.

(** A first pass that returns was given a tensor. *)
Lemma hybrid_forward_fresh_inv (init : nat -> nat -> Q) (self self' : QHead.t)
      (x y : nd.Matrix) (n : nat) :
  QHead.dense self = Some (Dense__init__ n None) ->
  QHead.hybrid_forward init self x = Ok (self', y) ->
  1 <= n /\ nd.has_shape x (length x) (length (hd [] x)).
Proof.
  intros Hd. unfold QHead.hybrid_forward. rewrite Hd.
  unfold Dense_call. rewrite bind_params_fresh. simpl.
  unfold Dense_hybrid_forward. simpl.
  destruct (nd.FullyConnected x (initial_weight init n (length (hd [] x)))
              (replicate n 0%Q) n) as [out|e] eqn:Hfc; simpl; [|discriminate].
  intros _. eapply FullyConnected_inv; [|exact Hfc].
  by destruct (initial_weight_rows init n (length (hd [] x))).
Qed.

End forward.

(** C1: a head constructed over a [BoxActionSpace] has [num_actions = 1],
    one constructed over a [DiscreteActionSpace] of [k] actions has
    [num_actions = k]; with at least one action, its forward pass on an
    input of shape [[B, D]] with [B >= 1] and [D >= 1] returns an output of
    shape [[B, num_actions]], and so does every later pass on a batch of
    the same width. *)
Theorem num_actions_and_forward_shape (a : QHead.Args.t) (self : QHead.t) :
  QHead.new a = Ok self ->
  (forall shape, spaces.action (QHead.Args.spaces a) = spaces.BoxActionSpace shape ->
                 QHead.num_actions self = Some 1)
  /\ (forall actions,
         spaces.action (QHead.Args.spaces a) = spaces.DiscreteActionSpace actions ->
         QHead.num_actions self = Some (length actions))
  /\ (forall (init : nat -> nat -> Q) (x : nd.Matrix) (B D n : nat),
         QHead.num_actions self = Some n -> 1 <= n ->
         1 <= B -> 1 <= D -> nd.has_shape x B D ->
         exists self' y,
           QHead.hybrid_forward init self x = Ok (self', y)
           /\ nd.has_shape y B n
           /\ nd.shape (nd.matrix y) = [B; n]
           /\ forall (x' : nd.Matrix) (B' : nat),
               1 <= B' -> nd.has_shape x' B' D ->
               exists y', QHead.hybrid_forward init self' x' = Ok (self', y')
                          /\ nd.has_shape y' B' n
                          /\ nd.shape (nd.matrix y') = [B'; n]).
Proof.
  intros Hnew. destruct (new_inv a self Hnew) as (_ & _ & _ & m & Hm & Hd & Hact).
  split; [|split].
  - intros shape Ha. rewrite Ha in Hact. by subst m.
  - intros actions Ha. rewrite Ha in Hact. by subst m.
  - intros init x B D n Hn Hpos HB HD Hx.
    assert (m = n) as -> by congruence.
    eexists _, _.
    split; [exact (hybrid_forward_fresh init self x B D n Hd Hpos Hx)|].
    assert (Hy : forall x0 B0, 1 <= B0 -> nd.has_shape x0 B0 D ->
                 nd.has_shape
                   (spec.affine n D (gluon.initial_weight init n D) (replicate n 0%Q) x0)
                   B0 n).
    { intros x0 B0 HB0 Hx0. apply affine_shape; try done.
      by destruct Hx0 as (_ & _ & Hlen & _). }
    split; [by apply Hy|]. split; [by apply shape_of_matrix, Hy|].
    intros x' B' HB' Hx'. eexists. split.
    + destruct (initial_weight_rows init n D) as [Hw Hrows].
      apply (hybrid_forward_bound init self x' _ _ B' D n); try done.
      by rewrite length_replicate.
    + split; [by apply Hy | by apply shape_of_matrix, Hy].
Qed.

Lemma num_actions_and_forward_shape_witness :
  exists self,
    QHead.new examples.discrete3 = Ok self
    /\ QHead.num_actions self = Some 3
    /\ exists self' y,
        QHead.hybrid_forward examples.init self examples.x22 = Ok (self', y)
        /\ nd.has_shape y 2 3.
Proof.
  assert (exists self,
             QHead.new examples.discrete3 = Ok self
             /\ QHead.num_actions self = Some 3) as (self & Hnew & Hn).
  { eexists. split; reflexivity. }
  destruct (num_actions_and_forward_shape examples.discrete3 self Hnew) as (_ & _ & Hf).
  destruct (Hf examples.init examples.x22 2 2 3 Hn) as (self' & y & Hy & Hs & _).
  - lia.
  - lia.
  - lia.
  - repeat split; [lia | lia | repeat constructor].
  - exists self. split; [exact Hnew|]. split; [exact Hn|]. exists self', y. auto.
Defined.

(** C8: the forward pass of a constructed head returns exactly the affine
    transform of its input by the weight and bias of its one dense layer,
    on its first call (with the initial parameters of a layer of
    [num_actions] units) and with any parameters an optimizer has put in
    the layer; it returns on tensors only. The layer has no activation,
    whatever [activation_function] the head was constructed with: the same
    head constructed with any other activation function has the same layer
    and returns the same output. *)
Theorem forward_is_affine (a : QHead.Args.t) (self : QHead.t)
        (init : nat -> nat -> Q) (x : nd.Matrix) (n : nat) :
  QHead.new a = Ok self ->
  QHead.num_actions self = Some n ->
  (forall B D, 1 <= n -> nd.has_shape x B D ->
               QHead.hybrid_forward init self x
               = Ok (after_first_call init D n self,
                     spec.affine n D (gluon.initial_weight init n D) (replicate n 0%Q) x))
  /\ (forall self' y, QHead.hybrid_forward init self x = Ok (self', y) ->
                      1 <= n /\ exists B D, nd.has_shape x B D)
  /\ (forall (w : nd.Matrix) (b : list Q) B D,
         1 <= n -> length w = n -> Forall (fun wj => length wj = D) w -> length b = n ->
         nd.has_shape x B D ->
         QHead.hybrid_forward init (with_parameters n w b self) x
         = Ok (with_parameters n w b self, spec.affine n D w b x))
  /\ (forall f, exists self_f,
         QHead.new (with_activation_function f a) = Ok self_f
         /\ QHead.dense self_f = QHead.dense self
         /\ forall B D, 1 <= n -> nd.has_shape x B D ->
              QHead.hybrid_forward init self_f x
              = Ok (after_first_call init D n self_f,
                    spec.affine n D (gluon.initial_weight init n D) (replicate n 0%Q) x)).
Proof.
  intros Hnew Hn. destruct (new_inv a self Hnew) as (Hs & _ & _ & m & Hm & Hd & Hact).
  assert (m = n) as -> by congruence.
  split; [|split; [|split]].
  - intros B D Hpos Hx. exact (hybrid_forward_fresh init self x B D n Hd Hpos Hx).
  - intros self' y Hy.
    destruct (hybrid_forward_fresh_inv init self self' x y n Hd Hy) as [Hpos Hx]. eauto.
  - intros w b B D Hpos Hw Hrows Hb Hx.
    exact (hybrid_forward_bound init self x w b B D n Hpos Hw Hrows Hb Hx).
  - intros f.
    destruct (new_succeeds (with_activation_function f a)) as [self_f Hf].
    { exact Hs. }
    { intros [Hb Hdi]. simpl in Hb, Hdi.
      destruct (spaces.action (QHead.Args.spaces a)); done. }
    destruct (new_inv _ self_f Hf) as (_ & _ & _ & m & _ & Hdf & Hactf).
    simpl in Hactf.
    assert (m = n) as ->.
    { destruct (spaces.action (QHead.Args.spaces a)); first [congruence | done]. }
    exists self_f. split; [done|]. split; [congruence|].
    intros B D Hpos Hx. exact (hybrid_forward_fresh init self_f x B D n Hdf Hpos Hx).
Qed.

Lemma forward_is_affine_witness :
  exists self,
    QHead.new examples.box = Ok self
    /\ QHead.hybrid_forward examples.init self examples.x22
       = Ok (after_first_call examples.init 2 1 self,
             spec.affine 1 2 (gluon.initial_weight examples.init 1 2) (replicate 1 0%Q)
                         examples.x22).
Proof.
  assert (exists self,
             QHead.new examples.box = Ok self
             /\ QHead.num_actions self = Some 1) as (self & Hnew & Hn).
  { eexists. split; reflexivity. }
  exists self. split; [exact Hnew|].
  apply (proj1 (forward_is_affine examples.box self examples.init examples.x22 1 Hnew Hn)
               2 2).
  - lia.
  - repeat split; [lia | lia | repeat constructor].
Defined.

(** ** The loss block *)

Section loss.

Import gluon.

Local Open Scope Q_scope.

Lemma row_lengths (m : nd.Matrix) (B N : nat) :
  nd.has_shape m B N -> map length m = replicate B N.
Proof.
  intros (_ & _ & <- & Hrows). induction Hrows as [|row m Hrow _ IH]; simpl; [done|].
  by rewrite Hrow, IH.
Qed.

Lemma size_of_row_lengths (a b : nd.Matrix) :
  map length a = map length b -> nd.size a = nd.size b.
Proof.
  unfold nd.size. revert b. induction a as [|ra a IH]; intros [|rb b] H; try discriminate.
  - reflexivity.
  - simpl in *. inversion H as [[Hr Hrest]]. rewrite !length_app. by rewrite Hr, (IH b).
Qed.

Lemma unflatten_concat (x : nd.Matrix) :
  nd.unflatten (map length x) (concat x) = x.
Proof.
  induction x as [|row x IH]; [reflexivity|].
  simpl. by rewrite take_app_length, drop_app_length, IH.
Qed.

(** A label of the shape of the prediction is left as it is. *)
Lemma reshape_like_same (label pred : nd.Matrix) (B N : nat) :
  nd.has_shape label B N -> nd.has_shape pred B N ->
  nd.reshape_like label pred = Ok label.
Proof.
  intros Hl Hp. unfold nd.reshape_like.
  assert (Hw : map length label = map length pred).
  { by rewrite (row_lengths label B N Hl), (row_lengths pred B N Hp). }
  rewrite bool_decide_eq_true_2; [|by apply size_of_row_lengths].
  by rewrite <- Hw, unflatten_concat.
Qed.

Lemma elemwise_ok (f : Q -> Q -> Q) (a b : nd.Matrix) (B N : nat) :
  nd.has_shape a B N -> nd.has_shape b B N ->
  nd.elemwise f a b = Ok (zip_with (zip_with f) a b).
Proof.
  intros Ha Hb. unfold nd.elemwise, nd.same_shape.
  rewrite (has_shape_not_empty a B N Ha).
  rewrite bool_decide_eq_true_2; [done|].
  by rewrite (row_lengths a B N Ha), (row_lengths b B N Hb).
Qed.

Lemma losses_shape (f : Q -> Q -> Q) (a b : nd.Matrix) (B N : nat) :
  nd.has_shape a B N -> nd.has_shape b B N ->
  nd.has_shape (zip_with (zip_with f) a b) B N.
Proof.
  intros (HB & HN & Hla & Ha) (_ & _ & Hlb & Hb). repeat split; try done.
  - rewrite length_zip_with. lia.
  - clear Hla Hlb HB. revert b Hb. induction Ha as [|ra a Hra _ IH]; intros [|rb b] Hb;
      simpl; try constructor.
    + inversion Hb; subst. rewrite length_zip_with. lia.
    + inversion Hb; subst. by apply IH.
Qed.

(** The samples of a matrix of [N] columns: its rows when the batch axis
    is 0, its columns when the batch axis is 1. *)
Lemma mean_exclude_samples (batch_axis : Z) (m : nd.Matrix) (B N : nat) :
  (batch_axis = 0 \/ batch_axis = 1)%Z -> nd.has_shape m B N ->
  nd.mean_exclude batch_axis m
  = Ok (nd.vector (map nd.mean_list
                       (if bool_decide (batch_axis = 0%Z) then m else nd.columns N m))).
Proof.
  intros Hax Hm. unfold nd.mean_exclude.
  rewrite (has_shape_not_empty m B N Hm), (hd_length m B N Hm).
  by destruct Hax as [-> | ->].
Qed.

Lemma mean_of_sample_means (batch_axis : Z) (m : nd.Matrix) (B N : nat) :
  nd.has_shape m B N ->
  nd.mean (nd.vector (map nd.mean_list
                          (if bool_decide (batch_axis = 0%Z) then m else nd.columns N m)))
  = Ok (nd.vector [nd.mean_list
                     (map nd.mean_list
                          (if bool_decide (batch_axis = 0%Z) then m
                           else nd.columns N m))]).
Proof.
  intros (HB & HN & Hlen & _). unfold nd.mean. simpl.
  case_bool_decide.
  - destruct m; simpl in *; [lia | done].
  - unfold nd.columns. destruct N; [lia|]. done.
Qed.

(** The loss computation on a supported loss and tensors of one shape. *)
Lemma loss_forward_supported (self : QHeadLoss.t) (elem : Q -> Q -> Q)
      (pred target : nd.Matrix) (B N : nat) :
  let l := QHeadLoss.loss_fn self in
  (loss_class l = L2Loss /\ elem = l2_elem (_weight l))
  \/ (loss_class l = HuberLoss /\ elem = huber_elem (_weight l)) ->
  (_batch_axis l = 0 \/ _batch_axis l = 1)%Z ->
  nd.has_shape pred B N -> nd.has_shape target B N ->
  QHeadLoss.loss_forward self pred target
  = Ok [(nd.vector
           [nd.mean_list
              (map nd.mean_list
                   (if bool_decide (_batch_axis l = 0%Z)
                    then zip_with (zip_with elem) pred target
                    else nd.columns N (zip_with (zip_with elem) pred target)))],
         head.LOSS_OUT_TYPE_LOSS)].
Proof.
  intros l Hl Hax Hp Ht. unfold QHeadLoss.loss_forward, call. fold l.
  pose proof (losses_shape elem pred target B N Hp Ht) as Hloss.
  destruct Hl as [[-> ->] | [-> ->]];
    rewrite (reshape_like_same target pred B N Ht Hp); simpl;
    rewrite (elemwise_ok _ pred target B N Hp Ht); simpl;
    rewrite (mean_exclude_samples _ _ B N Hax Hloss); simpl;
    by rewrite (mean_of_sample_means _ _ B N Hloss).
Qed.

Lemma nth_map_lt {A C : Type} (f : A -> C) (l : list A) (d : A) (dc : C) (i : nat) :
  (i < length l)%nat -> nth i (map f l) dc = f (nth i l d).
Proof.
  revert i. induction l as [|x l IH]; intros [|i] Hi; simpl in *; try lia.
  - reflexivity.
  - apply IH. lia.
Qed.

(** The entries of the elementwise loss. *)
Lemma entry_of_losses (elem : Q -> Q -> Q) (pred target : nd.Matrix) (B N i j : nat) :
  nd.has_shape pred B N -> nd.has_shape target B N ->
  (i < B)%nat -> (j < N)%nat ->
  nth j (nth i (zip_with (zip_with elem) pred target) []) 0
  = elem (spec.entry pred i j) (spec.entry target i j).
Proof.
  intros (_ & _ & Hlp & Hp) (_ & _ & Hlt & Ht) Hi Hj. unfold spec.entry.
  rewrite (nth_zip_with _ pred target [] [] []); [|lia|lia].
  apply nth_zip_with.
  - rewrite (proj1 (Forall_nth _ _ _) Hp); lia.
  - rewrite (proj1 (Forall_nth _ _ _) Ht); lia.
Qed.

(** The mean of the per-sample means, written with sums over indices. *)
Lemma sample_means_compute (elem : Q -> Q -> Q) (batch_axis : Z)
      (pred target : nd.Matrix) (B N : nat) :
  nd.has_shape pred B N -> nd.has_shape target B N ->
  nd.mean_list
    (map nd.mean_list
         (if bool_decide (batch_axis = 0%Z)
          then zip_with (zip_with elem) pred target
          else nd.columns N (zip_with (zip_with elem) pred target)))
  = spec.compute elem batch_axis B N pred target.
Proof.
  intros Hp Ht. pose proof (losses_shape elem pred target B N Hp Ht) as Hloss.
  destruct Hloss as (_ & _ & Hlen & Hrows).
  unfold spec.compute. case_bool_decide.
  - rewrite (mean_list_big_sum _ B); [|by rewrite length_map].
    f_equal. apply big_sum_ext. intros i Hi. cbv beta.
    rewrite (nth_map_lt _ _ [] 0); [|lia].
    rewrite (mean_list_big_sum _ N); [|apply Forall_nth; [done | lia]].
    f_equal. apply big_sum_ext. intros j Hj. cbv beta.
    by apply (entry_of_losses elem pred target B N).
  - unfold nd.columns.
    rewrite (mean_list_big_sum _ N); [|by rewrite !length_map, length_seq].
    f_equal. apply big_sum_ext. intros j Hj. cbv beta.
    rewrite (nth_map_lt _ _ [] 0); [|by rewrite length_map, length_seq].
    rewrite (nth_map_lt _ _ 0%nat []); [|by rewrite length_seq].
    rewrite seq_nth; [|done]. simpl.
    rewrite (mean_list_big_sum _ B); [|by rewrite length_map].
    f_equal. apply big_sum_ext. intros i Hi. cbv beta.
    rewrite (nth_map_lt _ _ [] 0); [|lia].
    by apply (entry_of_losses elem pred target B N).
Qed.

End loss.

(** C2, as the code has it: on [pred] and [target] of one shape
    [[batch_size, num_actions]] the loss computation applies the configured
    elementwise loss, averages it over the non-batch dimension per sample
    and averages these over the batch; it returns this one number as a
    tensor of shape [(1,)], whatever the batch size. *)
Theorem loss_forward_mean_of_sample_means
        (loss_type : gluon.LossType) (elem : Q -> Q -> Q) (weight : Q) (batch_axis : Z)
        (pred target : nd.Matrix) (batch_size num_actions : nat) :
  (loss_type = gluon.L2Loss /\ elem = gluon.l2_elem weight)
  \/ (loss_type = gluon.HuberLoss /\ elem = gluon.huber_elem weight) ->
  (batch_axis = 0 \/ batch_axis = 1)%Z ->
  nd.has_shape pred batch_size num_actions ->
  nd.has_shape target batch_size num_actions ->
  exists loss,
    QHeadLoss.loss_forward
      (QHeadLoss.__init__ (Some loss_type) (Some weight) (Some batch_axis)) pred target
    = Ok [(loss, head.LOSS_OUT_TYPE_LOSS)]
    /\ loss = nd.vector [spec.compute elem batch_axis batch_size num_actions pred target]
    /\ nd.shape loss = [1].
Proof.
  intros Hl Hax Hp Ht.
  exists (nd.vector [spec.compute elem batch_axis batch_size num_actions pred target]).
  split; [|split; reflexivity].
  rewrite (loss_forward_supported _ elem pred target batch_size num_actions); try done.
  simpl.
  by rewrite (sample_means_compute elem batch_axis pred target batch_size num_actions).
Qed.

Lemma loss_forward_mean_of_sample_means_witness :
  exists loss,
    QHeadLoss.loss_forward
      (QHeadLoss.__init__ (Some gluon.HuberLoss) (Some 2%Q) (Some 1%Z))
      examples.x22 [[0; 0]; [0; 0]]%Q
    = Ok [(loss, head.LOSS_OUT_TYPE_LOSS)]
    /\ loss = nd.vector [spec.compute (gluon.huber_elem 2) 1 2 2
                                      examples.x22 [[0; 0]; [0; 0]]%Q]
    /\ nd.shape loss = [1].
Proof.
  apply (loss_forward_mean_of_sample_means gluon.HuberLoss (gluon.huber_elem 2) 2 1
           examples.x22 [[0; 0]; [0; 0]]%Q 2 2).
  - right; split; reflexivity.
  - right; reflexivity.
  - repeat split; [lia | lia | repeat constructor].
  - repeat split; [lia | lia | repeat constructor].
Defined.

(** C2 as stated fails: the loss that the loss computation returns is not
    a tensor without dimensions. On [pred = [[1.0]]] and [target = [[0.0]]]
    it is the tensor of shape [(1,)] that holds 0.5, and no tensor that the
    computation returns has the empty shape. *)
Lemma loss_forward_zero_dimensional_counterexample :
  QHeadLoss.loss_forward (QHeadLoss.__init__ (Some gluon.L2Loss) None (Some 0%Z))
                         [[1%Q]] [[0%Q]]
  = Ok [(nd.vector [1 # 2], head.LOSS_OUT_TYPE_LOSS)]
  /\ nd.shape (nd.vector [1 # 2]) = [1]
  /\ ~ (forall (pred target : nd.Matrix) (batch_size num_actions : nat),
           nd.has_shape pred batch_size num_actions ->
           nd.has_shape target batch_size num_actions ->
           exists loss,
             QHeadLoss.loss_forward
               (QHeadLoss.__init__ (Some gluon.L2Loss) None (Some 0%Z)) pred target
             = Ok [(loss, head.LOSS_OUT_TYPE_LOSS)]
             /\ nd.shape loss = []).
Proof.
  split; [reflexivity|]. split; [reflexivity|].
  intros H. destruct (H [[1%Q]] [[0%Q]] 1 1) as (loss & Hr & Hs).
  - repeat split; [lia | lia | repeat constructor].
  - repeat split; [lia | lia | repeat constructor].
  - inversion Hr; subst. discriminate Hs.
Qed.

(** C4: with the mean-squared-error loss, weight 1 and batch axis 0 (given
    or by default), the loss of [pred = [[1.0]]] against [target = [[0.0]]]
    is the one number 0.5. *)
Theorem l2_loss_of_unit_error :
  QHeadLoss.loss_forward (QHeadLoss.__init__ (Some gluon.L2Loss) None (Some 0%Z))
                         [[1%Q]] [[0%Q]]
  = Ok [(nd.vector [1 # 2], head.LOSS_OUT_TYPE_LOSS)]
  /\ QHeadLoss.loss_forward (QHeadLoss.__init__ None None None) [[1%Q]] [[0%Q]]
     = Ok [(nd.vector [1 # 2], head.LOSS_OUT_TYPE_LOSS)].
Proof. split; reflexivity. Qed.

(** C6: whatever the loss type, weight and batch axis of a loss block, its
    input schema is head outputs [["pred"]], agent inputs [[]] and targets
    [["target"]]. *)
Theorem input_schema_constant (self : QHeadLoss.t) :
  QHeadLoss.input_schema self
  = head.mkLossInputSchema ["pred"] [] ["target"]
  /\ forall loss_type weight batch_axis,
      QHeadLoss.input_schema (QHeadLoss.__init__ loss_type weight batch_axis)
      = head.mkLossInputSchema ["pred"] [] ["target"].
Proof. split; reflexivity. Qed.

(** C7: whatever the configuration and the inputs, what the loss
    computation returns is one pair whose second element is
    [LOSS_OUT_TYPE_LOSS]; and it does return on inputs of one shape for the
    supported losses. *)
Theorem loss_forward_tag (self : QHeadLoss.t) (pred target : nd.Matrix) :
  (forall outs,
      QHeadLoss.loss_forward self pred target = Ok outs ->
      exists loss, outs = [(loss, head.LOSS_OUT_TYPE_LOSS)]
                   /\ Forall (fun out => snd out = head.LOSS_OUT_TYPE_LOSS) outs)
  /\ (forall B N,
         spec.supported (gluon.loss_class (QHeadLoss.loss_fn self)) ->
         (gluon._batch_axis (QHeadLoss.loss_fn self) = 0
          \/ gluon._batch_axis (QHeadLoss.loss_fn self) = 1)%Z ->
         nd.has_shape pred B N -> nd.has_shape target B N ->
         exists loss,
           QHeadLoss.loss_forward self pred target = Ok [(loss, head.LOSS_OUT_TYPE_LOSS)]).
Proof.
  split.
  - intros outs. unfold QHeadLoss.loss_forward.
    destruct (gluon.call (QHeadLoss.loss_fn self) pred target) as [t|e]; simpl;
      [|discriminate].
    destruct (nd.mean t) as [loss|e]; simpl; intros Hr; inversion Hr; subst.
    eexists. split; [reflexivity|]. by repeat constructor.
  - intros B N [Hl | Hl] Hax Hp Ht.
    + rewrite (loss_forward_supported
                 self (gluon.l2_elem (gluon._weight (QHeadLoss.loss_fn self)))
                 pred target B N); try done; [eauto | by left].
    + rewrite (loss_forward_supported
                 self (gluon.huber_elem (gluon._weight (QHeadLoss.loss_fn self)))
                 pred target B N); try done; [eauto | by right].
Qed.

Lemma loss_forward_tag_witness :
  exists loss,
    [(nd.vector [1 # 2], head.LOSS_OUT_TYPE_LOSS)] = [(loss, head.LOSS_OUT_TYPE_LOSS)]
    /\ Forall (fun out => snd out = head.LOSS_OUT_TYPE_LOSS)
              [(nd.vector [1 # 2], head.LOSS_OUT_TYPE_LOSS)].
Proof.
  apply (proj1 (loss_forward_tag (QHeadLoss.__init__ None None None) [[1%Q]] [[0%Q]])).
  reflexivity.
Defined.

(** ** The loss factory *)

Lemma loss_allocates (self : QHead.t) (loss_type : gluon.LossType)
      (heap : gmap nat QHeadLoss.t) :
  QHead.loss_type self = Some loss_type ->
  let block := QHeadLoss.__init__ (Some loss_type)
                                  (Some (head.loss_weight (QHead.base self))) None in
  let addr := fresh (dom heap) in
  QHead.loss self heap = Ok (addr, <[addr := block]> heap)
  /\ heap !! addr = None.
Proof.
  intros Hl. unfold QHead.loss. rewrite Hl. split; [reflexivity|].
  apply (not_elem_of_dom (D := gset nat)), is_fresh.
Qed.

(** C5: every call of the loss factory of a head returns a new block, at an
    address that no earlier block has, configured with the loss type and
    the loss weight of the head, and leaves every earlier block as it was;
    two blocks obtained from one head compute the same loss on the same
    [pred] and [target]. *)
Theorem loss_factory_fresh_and_deterministic
        (self : QHead.t) (loss_type : gluon.LossType) (heap : gmap nat QHeadLoss.t) :
  QHead.loss_type self = Some loss_type ->
  exists r1 heap1 r2 heap2 block1 block2,
    QHead.loss self heap = Ok (r1, heap1)
    /\ QHead.loss self heap1 = Ok (r2, heap2)
    /\ heap !! r1 = None /\ heap1 !! r2 = None /\ r1 <> r2
    /\ heap2 !! r1 = Some block1 /\ heap2 !! r2 = Some block2
    /\ (forall r, is_Some (heap !! r) -> heap2 !! r = heap !! r)
    /\ gluon.loss_class (QHeadLoss.loss_fn block1) = loss_type
    /\ gluon.loss_class (QHeadLoss.loss_fn block2) = loss_type
    /\ QHeadLoss._weight block1 = head.loss_weight (QHead.base self)
    /\ QHeadLoss._weight block2 = head.loss_weight (QHead.base self)
    /\ gluon._weight (QHeadLoss.loss_fn block1) = head.loss_weight (QHead.base self)
    /\ gluon._weight (QHeadLoss.loss_fn block2) = head.loss_weight (QHead.base self)
    /\ forall pred target,
        QHeadLoss.loss_forward block1 pred target
        = QHeadLoss.loss_forward block2 pred target.
Proof.
  intros Hl.
  destruct (loss_allocates self loss_type heap Hl) as [H1 Hf1].
  set (block := QHeadLoss.__init__ (Some loss_type)
                  (Some (head.loss_weight (QHead.base self))) None) in *.
  set (r1 := fresh (dom heap)) in *.
  destruct (loss_allocates self loss_type (<[r1 := block]> heap) Hl) as [H2 Hf2].
  fold block in H2. set (r2 := fresh (dom (<[r1 := block]> heap))) in *.
  assert (Hne : r1 <> r2).
  { intros Heq. rewrite <- Heq in Hf2. by rewrite lookup_insert_eq in Hf2. }
  exists r1, (<[r1 := block]> heap), r2, (<[r2 := block]> (<[r1 := block]> heap)),
    block, block.
  repeat split; try done.
  - rewrite lookup_insert_ne; [|done]. by rewrite lookup_insert_eq.
  - by rewrite lookup_insert_eq.
  - intros r [b Hb]. rewrite lookup_insert_ne in Hf2; [|done].
    rewrite !lookup_insert_ne; [done | | ]; intros <-; congruence.
Qed.

Lemma loss_factory_fresh_and_deterministic_witness :
  exists self r1 heap1 r2 heap2,
    QHead.new (with_loss_type gluon.HuberLoss examples.discrete3) = Ok self
    /\ QHead.loss self ∅ = Ok (r1, heap1)
    /\ QHead.loss self heap1 = Ok (r2, heap2)
    /\ r1 <> r2 /\ is_Some (heap2 !! r1) /\ is_Some (heap2 !! r2).
Proof.
  assert (exists self,
             QHead.new (with_loss_type gluon.HuberLoss examples.discrete3) = Ok self
             /\ QHead.loss_type self = Some gluon.HuberLoss) as (self & Hnew & Hl).
  { eexists. split; reflexivity. }
  destruct (loss_factory_fresh_and_deterministic self gluon.HuberLoss ∅ Hl)
    as (r1 & heap1 & r2 & heap2 & b1 & b2 & H1 & H2 & _ & _ & Hne & Hb1 & Hb2 & _).
  exists self, r1, heap1, r2, heap2. eauto 10.
Defined.

(** C10: every block that the loss factory of a head produces has batch
    axis 0, for the block and for the loss function inside it, whatever the
    configuration of the head; and the factory does produce a block for
    every head that has its loss type. *)
Theorem loss_factory_batch_axis (self : QHead.t) (heap : gmap nat QHeadLoss.t) :
  (forall r heap',
      QHead.loss self heap = Ok (r, heap') ->
      exists block,
        heap' !! r = Some block
        /\ QHeadLoss._batch_axis block = 0%Z
        /\ gluon._batch_axis (QHeadLoss.loss_fn block) = 0%Z)
  /\ (forall loss_type,
         QHead.loss_type self = Some loss_type ->
         exists r heap', QHead.loss self heap = Ok (r, heap')).
Proof.
  split.
  - intros r heap'. unfold QHead.loss.
    destruct (QHead.loss_type self) as [l|]; intros Hr; inversion Hr; subst.
    eexists. rewrite lookup_insert_eq. done.
  - intros l Hl. destruct (loss_allocates self l heap Hl) as [Hr _]. eauto.
Qed.

Lemma loss_factory_batch_axis_witness :
  exists self r heap',
    QHead.new (with_loss_type gluon.HuberLoss examples.box) = Ok self
    /\ QHead.loss self ∅ = Ok (r, heap')
    /\ exists block,
        heap' !! r = Some block
        /\ QHeadLoss._batch_axis block = 0%Z
        /\ gluon._batch_axis (QHeadLoss.loss_fn block) = 0%Z.
Proof.
  assert (exists self,
             QHead.new (with_loss_type gluon.HuberLoss examples.box) = Ok self
             /\ QHead.loss_type self = Some gluon.HuberLoss) as (self & Hnew & Hl).
  { eexists. split; reflexivity. }
  destruct (proj2 (loss_factory_batch_axis self ∅) gluon.HuberLoss Hl) as (r & heap' & Hr).
  exists self, r, heap'. split; [exact Hnew|]. split; [exact Hr|].
  exact (proj1 (loss_factory_batch_axis self ∅) r heap' Hr).
Defined.


(** * Further properties of the two classes *)

(** ** Outcome of the constructor *)

(** X1: [QHead(...)] returns a head exactly when the loss type is [L2Loss]
    or [HuberLoss] and the action space is a [BoxActionSpace] or a
    [DiscreteActionSpace]; otherwise it raises, and the only exceptions it
    raises are the assertion error on [loss_type] and the attribute error on
    [num_actions]. *)
Theorem construction_outcome (a : QHead.Args.t) :
  ((exists self, QHead.new a = Ok self)
   <-> (spec.supported (QHead.Args.loss_type a) /\ ~ other_action_space a))
  /\ (forall e, QHead.new a = Raise e ->
                e = AssertionError "Only expecting L2Loss or HuberLoss."
                \/ e = AttributeError "num_actions").
Proof.
  split; [split|].
  - intros [self Hnew]. destruct (new_inv a self Hnew) as (Hs & _ & _ & n & _ & _ & Hact).
    split; [exact Hs|]. intros [Hb Hd].
    destruct (spaces.action (QHead.Args.spaces a)); simpl in *; done.
  - intros [Hs Ho]. by apply new_succeeds.
  - intros e Hr%new_raise.
    destruct (gluon.class_eqb (QHead.Args.loss_type a) gluon.L2Loss
              || gluon.class_eqb (QHead.Args.loss_type a) gluon.HuberLoss) eqn:Hc.
    + apply class_check_supported in Hc.
      destruct (init_supported_loss a Hc) as (_ & _ & Hact).
      destruct (spaces.action (QHead.Args.spaces a)); destruct Hact as (Hr' & _);
        rewrite Hr in Hr'; inversion Hr'; auto.
    + apply class_check_unsupported in Hc.
      destruct (init_unsupported_loss a Hc) as (Hr' & _).
      rewrite Hr in Hr'; inversion Hr'; auto.
Qed.

Lemma construction_outcome_witness :
  (exists self, QHead.new (with_loss_type gluon.HuberLoss examples.box) = Ok self)
  /\ (AttributeError "num_actions" = AssertionError "Only expecting L2Loss or HuberLoss."
      \/ AttributeError "num_actions" = AttributeError "num_actions").
Proof.
  split.
  - apply (proj2 (proj1 (construction_outcome
                           (with_loss_type gluon.HuberLoss examples.box)))).
    split; [right; reflexivity|]. intros [Hb _]. discriminate Hb.
  - apply (proj2 (construction_outcome examples.multi_select)). reflexivity.
Defined.

(** X3: the arguments that the constructor documents as unused do not
    influence it: two calls with the same action space and the same loss
    type end the same way (return, or the same exception) and leave the same
    [num_actions], [loss_type] and dense layer. *)
Theorem construction_ignores_unused_arguments (a a' : QHead.Args.t) :
  spaces.action (QHead.Args.spaces a) = spaces.action (QHead.Args.spaces a') ->
  QHead.Args.loss_type a = QHead.Args.loss_type a' ->
  snd (QHead.__init__ a) = snd (QHead.__init__ a')
  /\ QHead.num_actions (fst (QHead.__init__ a)) = QHead.num_actions (fst (QHead.__init__ a'))
  /\ QHead.loss_type (fst (QHead.__init__ a)) = QHead.loss_type (fst (QHead.__init__ a'))
  /\ QHead.dense (fst (QHead.__init__ a)) = QHead.dense (fst (QHead.__init__ a')).
Proof.
  destruct a as [ap [act] nn idx w loc af dl lt], a' as [ap' [act'] nn' idx' w' loc' af' dl' lt'].
  simpl. intros <- <-.
  unfold QHead.__init__, QHead.init_body; destruct act; cbn;
    destruct (gluon.class_eqb lt gluon.L2Loss || gluon.class_eqb lt gluon.HuberLoss);
    cbn; auto.
Qed.

Lemma construction_ignores_unused_arguments_witness :
  snd (QHead.__init__ examples.discrete3)
  = snd (QHead.__init__ (with_activation_function "tanh" examples.discrete3))
  /\ QHead.dense (fst (QHead.__init__ examples.discrete3))
     = QHead.dense (fst (QHead.__init__ (with_activation_function "tanh" examples.discrete3))).
Proof.
  destruct (construction_ignores_unused_arguments
              examples.discrete3 (with_activation_function "tanh" examples.discrete3)
              eq_refl eq_refl) as (Hr & _ & _ & Hd).
  auto.
Defined.

(** X4: the dense layer is the last attribute that the constructor
    assigns: it is assigned exactly when the constructor returns, while
    [num_actions] is assigned exactly when the action space is of one of the
    two classes, whether the constructor returns or not. *)
Theorem dense_assigned_iff_constructed (a : QHead.Args.t) :
  (is_Some (QHead.dense (fst (QHead.__init__ a))) <-> snd (QHead.__init__ a) = Ok tt)
  /\ (is_Some (QHead.num_actions (fst (QHead.__init__ a))) <-> ~ other_action_space a).
Proof.
  unfold other_action_space.
  destruct a as [ap [act] nn idx w loc af dl lt]. simpl.
  unfold QHead.__init__, QHead.init_body; destruct act; cbn;
    destruct (gluon.class_eqb lt gluon.L2Loss || gluon.class_eqb lt gluon.HuberLoss);
    cbn; (split; split); intros H;
    first [ done | by destruct H as [? ?] | by intros [? ?]
          | exfalso; by apply H | by eexists ].
Qed.

Lemma dense_assigned_iff_constructed_witness :
  is_Some (QHead.dense (fst (QHead.__init__ examples.box)))
  /\ is_Some (QHead.num_actions
                (fst (QHead.__init__ (with_loss_type examples.L1Loss examples.box)))).
Proof.
  split.
  - apply (proj2 (proj1 (dense_assigned_iff_constructed examples.box))). reflexivity.
  - apply (proj2 (proj2 (dense_assigned_iff_constructed
                           (with_loss_type examples.L1Loss examples.box)))).
    intros [Hb _]. discriminate Hb.
Defined.

(** X5: the constructor accepts a discrete action space without actions:
    a constructed head has [num_actions = 0] exactly when its action space
    is a [DiscreteActionSpace] whose list of actions is empty. *)
Theorem zero_actions_iff_empty_discrete (a : QHead.Args.t) (self : QHead.t) :
  QHead.new a = Ok self ->
  (QHead.num_actions self = Some 0
   <-> spaces.action (QHead.Args.spaces a) = spaces.DiscreteActionSpace []).
Proof.
  intros Hnew. destruct (new_inv a self Hnew) as (_ & _ & _ & n & Hn & _ & Hact).
  rewrite Hn. destruct (spaces.action (QHead.Args.spaces a)) as [sh|acts|c]; [| |done].
  - subst n. split; intros H; discriminate H.
  - subst n. split; intros H.
    + inversion H as [Hlen]. by destruct acts.
    + by inversion H.
Qed.

Lemma zero_actions_iff_empty_discrete_witness :
  exists self,
    QHead.new (QHead.Args.defaults examples.agent
                 (spaces.mkSpaces (spaces.DiscreteActionSpace [])) "main") = Ok self
    /\ QHead.num_actions self = Some 0.
Proof.
  assert (exists self,
             QHead.new (QHead.Args.defaults examples.agent
                          (spaces.mkSpaces (spaces.DiscreteActionSpace [])) "main")
             = Ok self) as [self Hnew].
  { eexists. reflexivity. }
  exists self. split; [exact Hnew|].
  apply (proj2 (zero_actions_iff_empty_discrete _ self Hnew)). reflexivity.
Defined.

(** ** The loss block and the factory *)

(** X8: the defaults of the two constructors agree: the factory of a head
    constructed with the default [loss_weight] and [loss_type] produces the
    very block that [QHeadLoss()] constructs with no argument. *)
Theorem default_head_default_loss
        (agent_parameters : head.AgentParameters) (spaces : spaces.SpacesDefinition)
        (network_name : string) (self : QHead.t)
        (heap heap' : gmap nat QHeadLoss.t) (r : nat) :
  QHead.new (QHead.Args.defaults agent_parameters spaces network_name) = Ok self ->
  QHead.loss self heap = Ok (r, heap') ->
  heap' !! r = Some (QHeadLoss.__init__ None None None).
Proof.
  intros Hnew Hloss.
  destruct (new_inv _ self Hnew) as (_ & Hl & Hw & _). simpl in Hl, Hw.
  destruct (loss_allocates self gluon.L2Loss heap Hl) as [Hr _].
  rewrite Hr in Hloss. inversion Hloss; subst.
  rewrite lookup_insert_eq, Hw. reflexivity.
Qed.

Lemma default_head_default_loss_witness :
  exists self r heap',
    QHead.new examples.box = Ok self
    /\ QHead.loss self ∅ = Ok (r, heap')
    /\ heap' !! r = Some (QHeadLoss.__init__ None None None).
Proof.
  assert (exists self r heap',
             QHead.new examples.box = Ok self /\ QHead.loss self ∅ = Ok (r, heap'))
    as (self & r & heap' & Hnew & Hloss).
  { eexists _, _, _. split; reflexivity. }
  exists self, r, heap'. split; [exact Hnew|]. split; [exact Hloss|].
  exact (default_head_default_loss examples.agent _ "main" self ∅ heap' r Hnew Hloss).
Defined.

(** X9: the assertion of the constructor makes the factory safe to use:
    the block that the factory of a constructed head produces does not
    raise on [pred] and [target] of one shape; it returns one pair, the
    loss tensor of shape [(1,)] with the tag [LOSS_OUT_TYPE_LOSS]. *)
Theorem constructed_head_loss_returns
        (a : QHead.Args.t) (self : QHead.t) (heap heap' : gmap nat QHeadLoss.t) (r : nat)
        (pred target : nd.Matrix) (batch_size num_actions : nat) :
  QHead.new a = Ok self ->
  QHead.loss self heap = Ok (r, heap') ->
  nd.has_shape pred batch_size num_actions ->
  nd.has_shape target batch_size num_actions ->
  exists block loss,
    heap' !! r = Some block
    /\ QHeadLoss.loss_forward block pred target = Ok [(loss, head.LOSS_OUT_TYPE_LOSS)]
    /\ nd.shape loss = [1].
Proof.
  intros Hnew Hloss Hp Ht.
  destruct (new_inv a self Hnew) as (Hs & Hl & Hw & _).
  destruct (loss_allocates self _ heap Hl) as [Hr _].
  rewrite Hr in Hloss. inversion Hloss; subst. rewrite Hw.
  set (block := QHeadLoss.__init__ (Some (QHead.Args.loss_type a))
                  (Some (QHead.Args.loss_weight a)) None).
  assert (Hf : exists elem,
             QHeadLoss.loss_forward block pred target
             = Ok [(nd.vector
                      [nd.mean_list
                         (map nd.mean_list (zip_with (zip_with elem) pred target))],
                    head.LOSS_OUT_TYPE_LOSS)]).
  { destruct Hs as [Hs | Hs].
    - exists (gluon.l2_elem (QHead.Args.loss_weight a)).
      apply (loss_forward_supported block _ pred target batch_size num_actions);
        [by left | by left | done | done].
    - exists (gluon.huber_elem (QHead.Args.loss_weight a)).
      apply (loss_forward_supported block _ pred target batch_size num_actions);
        [by right | by left | done | done]. }
  destruct Hf as [elem Hf].
  exists block. eexists. split; [by rewrite lookup_insert_eq|].
  split; [exact Hf | reflexivity].
Qed.

Lemma constructed_head_loss_returns_witness :
  exists self r heap' block loss,
    QHead.new (with_loss_type gluon.HuberLoss examples.discrete3) = Ok self
    /\ QHead.loss self ∅ = Ok (r, heap')
    /\ heap' !! r = Some block
    /\ QHeadLoss.loss_forward block examples.x22 [[0; 0]; [0; 0]]%Q
       = Ok [(loss, head.LOSS_OUT_TYPE_LOSS)].
Proof.
  assert (exists self r heap',
             QHead.new (with_loss_type gluon.HuberLoss examples.discrete3) = Ok self
             /\ QHead.loss self ∅ = Ok (r, heap'))
    as (self & r & heap' & Hnew & Hloss).
  { eexists _, _, _. split; reflexivity. }
  destruct (constructed_head_loss_returns
              (with_loss_type gluon.HuberLoss examples.discrete3) self ∅ heap' r
              examples.x22 [[0; 0]; [0; 0]]%Q 2 2 Hnew Hloss)
    as (block & loss & Hb & Hf & _).
  - repeat split; [lia | lia | repeat constructor].
  - repeat split; [lia | lia | repeat constructor].
  - exists self, r, heap', block, loss. auto.
Defined.

(** X10: any number of successive calls of the factory of one head
    allocates that many blocks at pairwise distinct addresses, none of which
    was in use before the first call; every block has the configuration of
    the head, and the blocks that existed before are left as they were. *)
Theorem loss_factory_repeated (self : QHead.t) (loss_type : gluon.LossType) (n : nat) :
  QHead.loss_type self = Some loss_type ->
  forall heap : gmap nat QHeadLoss.t,
  exists rs heap',
    loss_n self n heap = Ok (rs, heap')
    /\ length rs = n /\ NoDup rs
    /\ (forall r, r ∈ rs ->
                  heap !! r = None
                  /\ heap' !! r
                     = Some (QHeadLoss.__init__ (Some loss_type)
                               (Some (head.loss_weight (QHead.base self))) None))
    /\ (forall r, is_Some (heap !! r) -> heap' !! r = heap !! r).
Proof.
  intros Hl. induction n as [|n IH]; intros heap.
  - exists [], heap. simpl. repeat split; try done.
    + constructor.
    + by apply elem_of_nil in H.
    + by apply elem_of_nil in H.
  - destruct (loss_allocates self loss_type heap Hl) as [Hr Hfresh].
    set (block := QHeadLoss.__init__ (Some loss_type)
                    (Some (head.loss_weight (QHead.base self))) None) in *.
    set (r0 := fresh (dom heap)) in *.
    destruct (IH (<[r0 := block]> heap)) as (rs & heap' & Hn & Hlen & Hnd & Hnew & Hold).
    exists (r0 :: rs), heap'. simpl. rewrite Hr. simpl. rewrite Hn. simpl.
    assert (Hr0 : heap' !! r0 = Some block).
    { rewrite Hold; rewrite lookup_insert_eq; [done | by eexists]. }
    split; [done|]. split; [by rewrite Hlen|]. split; [|split].
    + apply NoDup_cons. split; [|done].
      intros Hin. destruct (Hnew r0 Hin) as [Hnone _].
      by rewrite lookup_insert_eq in Hnone.
    + intros r [-> | Hin]%elem_of_cons; [done|].
      destruct (Hnew r Hin) as [Hnone Hsome]. split; [|done].
      destruct (decide (r0 = r)) as [<- | Hne].
      * by rewrite lookup_insert_eq in Hnone.
      * by rewrite lookup_insert_ne in Hnone.
    + intros r Hsome.
      assert (Hne : r0 <> r).
      { intros <-. rewrite Hfresh in Hsome. by destruct Hsome. }
      rewrite Hold; rewrite lookup_insert_ne; done.
Qed.

Lemma loss_factory_repeated_witness :
  exists self rs heap',
    QHead.new examples.discrete3 = Ok self
    /\ loss_n self 3 ∅ = Ok (rs, heap')
    /\ length rs = 3 /\ NoDup rs.
Proof.
  assert (exists self,
             QHead.new examples.discrete3 = Ok self
             /\ QHead.loss_type self = Some gluon.L2Loss) as (self & Hnew & Hl).
  { eexists. split; reflexivity. }
  destruct (loss_factory_repeated self gluon.L2Loss 3 Hl ∅)
    as (rs & heap' & Hn & Hlen & Hnd & _).
  exists self, rs, heap'. auto.
Defined.

(** ** Repeated forward passes *)

Lemma new_units_match (a : QHead.Args.t) (self : QHead.t) :
  QHead.new a = Ok self -> units_match self.
Proof.
  intros Hnew. destruct (new_inv a self Hnew) as (_ & _ & _ & n & Hn & Hd & _).
  exists n, (gluon.Dense__init__ n None). auto.
Qed.

(** X11: a forward pass that returns changes nothing of the head but the
    parameters of its dense layer: the attributes of the base class,
    [num_actions] and [loss_type] are the same, the layer still has
    [num_actions] units and no activation, and the output has one row per
    row of the input. Once the parameters are allocated, a forward pass
    leaves the whole head as it is. *)
Theorem forward_preserves_head
        (init : nat -> nat -> Q) (self self' : QHead.t) (x y : nd.Matrix) :
  units_match self ->
  QHead.hybrid_forward init self x = Ok (self', y) ->
  units_match self'
  /\ QHead.base self' = QHead.base self
  /\ QHead.num_actions self' = QHead.num_actions self
  /\ QHead.loss_type self' = QHead.loss_type self
  /\ length y = length x
  /\ (forall d w b, QHead.dense self = Some d ->
                    gluon.weight d = Some w -> gluon.bias d = Some b ->
                    self' = self).
Proof.
  intros (n & d & Hn & Hd & Hu & Ha). unfold QHead.hybrid_forward. rewrite Hd.
  unfold gluon.Dense_call.
  destruct (bind_params_keeps init (length (hd [] x)) d) as [Hu' Ha'].
  assert (Hbound : forall w b, gluon.weight d = Some w -> gluon.bias d = Some b ->
                               gluon.bind_params init (length (hd [] x)) d = d).
  { intros w b. apply bind_params_bound. }
  destruct (gluon.bind_params init (length (hd [] x)) d) as [u f [w|] [b|]];
    simpl in *; try discriminate.
  subst u f. unfold gluon.Dense_hybrid_forward, nd.FullyConnected. simpl.
  destruct (nd.is_empty x); simpl; [discriminate|].
  case_bool_decide; simpl; [|discriminate]. rewrite Ha. simpl.
  intros Hr. inversion Hr; subst. simpl.
  split; [|repeat split].
  - exists (gluon._units d), (gluon.mkDense (gluon._units d) None (Some w) (Some b)).
    by rewrite Hn.
  - by rewrite length_map.
  - intros d0 w0 b0 Hd0 Hw0 Hb0. inversion Hd0; subst d0.
    pose proof (Hbound w0 b0 Hw0 Hb0) as Hsame. rewrite Ha in Hsame.
    rewrite Hsame. destruct self; simpl in *. by rewrite Hd.
Qed.

Lemma forward_preserves_head_witness :
  exists self self' y,
    QHead.new examples.discrete3 = Ok self
    /\ QHead.hybrid_forward examples.init self examples.x22 = Ok (self', y)
    /\ units_match self'
    /\ QHead.num_actions self' = QHead.num_actions self
    /\ length y = 2.
Proof.
  assert (exists self self' y,
             QHead.new examples.discrete3 = Ok self
             /\ QHead.hybrid_forward examples.init self examples.x22 = Ok (self', y))
    as (self & self' & y & Hnew & Hf).
  { eexists _, _, _. split; reflexivity. }
  destruct (forward_preserves_head examples.init self self' examples.x22 y
              (new_units_match _ self Hnew) Hf) as (Hu & _ & Hn & _ & Hlen & _).
  exists self, self', y. auto.
Defined.
